(** * Mindscape Diagnosis backend: the assessment submission pipeline

    A shallow embedding of [unified_backend.py]: the result sink
    [save_result], the analysis dispatcher [analyze_quiet_responses] with
    [fallback_analysis], the orchestrator [process_assessment] and the read
    endpoint [get_supabase_results].

    Modelling conventions.
    - A Python [str] is a [string] holding its UTF-8 bytes; the file
      [results.json] is opened with [encoding="utf-8"], so its content is a
      [string] as well.  The digit class of [str.isdigit] is the ASCII one;
      digit characters outside ASCII are outside the model, and what is
      proved about the entries that are scored is stated for ASCII answers.
    - Values whose type the code does not fix ([answers] and [gpt_result] of
      [save_result], JSON payloads, table rows) are [pyval]s.
    - Python [int] is [Z]; [int(s)] refuses a string of more digits than the
      interpreter's default limit, 4300.
    - Exceptions are the subclasses of [Exception]; [print] does not fail.
    - The world outside the process (the file, the Supabase table, the clock
      and which I/O operation fails) is explicit: state in [World], the
      behaviour of the collaborators during one call in [Env]. *)

From Stdlib Require Import String Ascii List ZArith Lia Bool Arith.
From Stdlib Require Decimal DecimalString DecimalPos DecimalZ.
Import ListNotations.
Open Scope nat_scope.
Open Scope list_scope.
Open Scope string_scope.

Set Implicit Arguments.

(* ================================================================== *)
(** * Python values *)
(* ================================================================== *)

#[local] Unset Elimination Schemes.
Inductive pyval : Type :=
| PyNone
| PyBool (b : bool)
| PyInt (n : Z)
| PyStr (s : string)
| PyList (l : list pyval)
| PyDict (d : list (string * pyval)).
#[local] Set Elimination Schemes.

(** Truth value of an object, as tested by [if x] and [x and y]. *)
Definition truthy (v : pyval) : bool :=
  match v with
  | PyNone => false
  | PyBool b => b
  | PyInt n => negb (n =? 0)%Z
  | PyStr s => negb (Nat.eqb (String.length s) 0)
  | PyList l => negb (Nat.eqb (length l) 0)
  | PyDict d => negb (Nat.eqb (length d) 0)
  end.

(** [type(v).__name__] *)
Definition type_name (v : pyval) : string :=
  match v with
  | PyNone => "NoneType"
  | PyBool _ => "bool"
  | PyInt _ => "int"
  | PyStr _ => "str"
  | PyList _ => "list"
  | PyDict _ => "dict"
  end.

(** [isinstance(v, list)] *)
Definition isinstance_list (v : pyval) : bool :=
  match v with PyList _ => true | _ => false end.

(** Induction on [pyval] that reaches the elements of lists and dicts. *)
Section pyval_induction.
Variable P : pyval -> Prop.
Hypothesis HNone : P PyNone.
Hypothesis HBool : forall b, P (PyBool b).
Hypothesis HInt : forall n, P (PyInt n).
Hypothesis HStr : forall s, P (PyStr s).
Hypothesis HList : forall l, Forall P l -> P (PyList l).
Hypothesis HDict : forall d, Forall (fun kv => P (snd kv)) d -> P (PyDict d).

Fixpoint pyval_rect_nested (v : pyval) : P v :=
  match v with
  | PyNone => HNone
  | PyBool b => HBool b
  | PyInt n => HInt n
  | PyStr s => HStr s
  | PyList l =>
      HList ((fix go (l : list pyval) : Forall P l :=
                match l with
                | [] => Forall_nil _
                | x :: r => Forall_cons _ (pyval_rect_nested x) (go r)
                end) l)
  | PyDict d =>
      HDict ((fix go (d : list (string * pyval))
                : Forall (fun kv => P (snd kv)) d :=
                match d with
                | [] => Forall_nil _
                | kv :: r => Forall_cons _ (pyval_rect_nested (snd kv)) (go r)
                end) d)
  end.
End pyval_induction.

(* ================================================================== *)
(** * Strings and integers *)
(* ================================================================== *)

Definition quote_char : ascii := ascii_of_nat 34.
Definition backslash_char : ascii := ascii_of_nat 92.
Definition newline_char : ascii := ascii_of_nat 10.
Definition newline : string := String newline_char EmptyString.

(** [str(n)] for an [int]. *)
Definition str_of_int (n : Z) : string := DecimalString.NilZero.string_of_int (Z.to_int n).

(** [sep.join(parts)] *)
Fixpoint join (sep : string) (parts : list string) : string :=
  match parts with
  | [] => EmptyString
  | [p] => p
  | p :: rest => p ++ sep ++ join sep rest
  end.

Definition is_ascii_digit (c : ascii) : bool :=
  let n := nat_of_ascii c in Nat.leb 48 n && Nat.leb n 57.

Fixpoint all_digits (s : string) : bool :=
  match s with
  | EmptyString => true
  | String c r => is_ascii_digit c && all_digits r
  end.

(** [s.isdigit()]: every character is a digit and there is at least one. *)
Definition str_isdigit (s : string) : bool :=
  match s with
  | EmptyString => false
  | String _ _ => all_digits s
  end.

(** The text uses ASCII characters only.  On such strings the digit class
    of the model is the one of [str.isdigit] and of [int]. *)
Fixpoint ascii_only (s : string) : bool :=
  match s with
  | EmptyString => true
  | String c r => Nat.ltb (nat_of_ascii c) 128 && ascii_only r
  end.

Fixpoint int_of_digits (acc : Z) (s : string) : Z :=
  match s with
  | EmptyString => acc
  | String c r => int_of_digits (10 * acc + Z.of_nat (nat_of_ascii c - 48)) r
  end.

(** The number that a string of digits denotes. *)
Definition int_of_str (s : string) : Z := int_of_digits 0 s.

(** The default of [sys.get_int_max_str_digits()]. *)
Definition int_max_str_digits : nat := 4300.

(** Number of occurrences of a character. *)
Fixpoint count_char (c : ascii) (s : string) : nat :=
  match s with
  | EmptyString => 0
  | String a r => (if Ascii.eqb a c then 1 else 0) + count_char c r
  end.

(** [s[:n]] *)
Fixpoint str_take (n : nat) (s : string) : string :=
  match n, s with
  | O, _ => EmptyString
  | S _, EmptyString => EmptyString
  | S k, String c r => String c (str_take k r)
  end.

(* ================================================================== *)
(** * [json.dumps(v, ensure_ascii=False)] *)
(* ================================================================== *)

Definition hex_digit (n : nat) : ascii :=
  nth n ["0"; "1"; "2"; "3"; "4"; "5"; "6"; "7";
         "8"; "9"; "a"; "b"; "c"; "d"; "e"; "f"]%char "0"%char.

(** The replacement table [ESCAPE_DCT] of the [json] encoder: backslash,
    the double quote and the control characters below 0x20 are escaped,
    every other byte is written as it is. *)
Definition escape_char (c : ascii) : string :=
  let n := nat_of_ascii c in
  let bs := String backslash_char EmptyString in
  if Nat.eqb n 92 then bs ++ bs
  else if Nat.eqb n 34 then bs ++ String quote_char EmptyString
  else if Nat.eqb n 8 then bs ++ "b"
  else if Nat.eqb n 12 then bs ++ "f"
  else if Nat.eqb n 10 then bs ++ "n"
  else if Nat.eqb n 13 then bs ++ "r"
  else if Nat.eqb n 9 then bs ++ "t"
  else if Nat.ltb n 32 then
    bs ++ "u00" ++ String (hex_digit (n / 16)) (String (hex_digit (n mod 16)) EmptyString)
  else String c EmptyString.

Fixpoint escape_string (s : string) : string :=
  match s with
  | EmptyString => EmptyString
  | String c r => escape_char c ++ escape_string r
  end.

Definition encode_basestring (s : string) : string :=
  String quote_char (escape_string s ++ String quote_char EmptyString).

Fixpoint dumps (v : pyval) : string :=
  match v with
  | PyNone => "null"
  | PyBool true => "true"
  | PyBool false => "false"
  | PyInt n => str_of_int n
  | PyStr s => encode_basestring s
  | PyList l => "[" ++ join ", " (map dumps l) ++ "]"
  | PyDict d =>
      "{" ++ join ", " (map (fun kv => encode_basestring (fst kv) ++ ": " ++ dumps (snd kv)) d) ++ "}"
  end.

(** [d.get(k)] on a dict kept as an association list. *)
Fixpoint dict_get (A : Type) (k : string) (d : list (string * A)) : option A :=
  match d with
  | [] => None
  | (k', v) :: r => if String.eqb k' k then Some v else dict_get k r
  end.

(** [d[k] = v]: replaces the value of a present key in place, appends a new
    key at the end. *)
Fixpoint dict_set (A : Type) (k : string) (v : A) (d : list (string * A)) : list (string * A) :=
  match d with
  | [] => [(k, v)]
  | (k', v') :: r => if String.eqb k' k then (k, v) :: r else (k', v') :: dict_set k v r
  end.

(* ================================================================== *)
(** * Exceptions, the world and the monad of effects *)
(* ================================================================== *)

(** An instance of a subclass of [Exception]: its class name and what
    [str(e)] returns. *)
Record exn : Type := Exception { exc_class : string; exc_str : string }.

(** What the process does to the outside, in the order it does it. *)
Inductive event : Type :=
| EvPrint (line : string)
| EvFileAppend (data : string)
| EvInsert (row : pyval)
| EvSelect.

Record World : Type := mkWorld {
  results_json : string;            (* content of the file results.json *)
  diagnostic_results : list pyval;  (* rows of the Supabase table *)
  clock_reads : nat;                (* calls of datetime.now() so far *)
  trace : list event
}.

(** Outcome of the [with open("results.json", "a", ...)] block. *)
Inductive file_outcome : Type :=
| FileOk
| OpenFails (e : exn)
| WriteFails (written : nat) (e : exn).

(** The module globals set at import time and the behaviour of the
    collaborators during one call. *)
Record Env : Type := mkEnv {
  OPENAI_ENABLED : bool;
  SUPABASE_ENABLED : bool;
  isoformat_now : nat -> string;   (* datetime.now().isoformat() at the n-th reading *)
  local_file : file_outcome;
  remote_insert : option exn;      (* Some e: insert(...).execute() raises e *)
  remote_select : option exn       (* Some e: select(...).execute() raises e *)
}.

Definition M (A : Type) : Type := Env -> World -> (exn + A) * World.

Definition ret (A : Type) (a : A) : M A := fun _ w => (inr a, w).

Definition bind (A B : Type) (m : M A) (k : A -> M B) : M B :=
  fun env w =>
    match m env w with
    | (inr a, w') => k a env w'
    | (inl e, w') => (inl e, w')
    end.

Definition raise (A : Type) (e : exn) : M A := fun _ w => (inl e, w).
Arguments raise {A} e.

(** [try: body  except Exception as e: handler(e)] *)
Definition try_except (A : Type) (body : M A) (handler : exn -> M A) : M A :=
  fun env w =>
    match body env w with
    | (inr a, w') => (inr a, w')
    | (inl e, w') => handler e env w'
    end.

Definition ask : M Env := fun env w => (inr env, w).

Declare Scope py_scope.
Delimit Scope py_scope with py.
Notation "x <- m ;; k" := (bind m (fun x => k))
  (at level 100, m at next level, right associativity) : py_scope.
Notation "m ;; k" := (bind m (fun _ => k))
  (at level 100, right associativity) : py_scope.
Open Scope py_scope.

Definition record_event (ev : event) (w : World) : World :=
  mkWorld (results_json w) (diagnostic_results w) (clock_reads w) (trace w ++ [ev])%list.

Definition print (line : string) : M unit :=
  fun _ w => (inr tt, record_event (EvPrint line) w).

(** [datetime.now().isoformat()] *)
Definition datetime_now_isoformat : M string :=
  fun env w =>
    (inr (isoformat_now env (clock_reads w)),
     mkWorld (results_json w) (diagnostic_results w) (S (clock_reads w)) (trace w)).

Definition file_append (data : string) (w : World) : World :=
  mkWorld (results_json w ++ data) (diagnostic_results w) (clock_reads w)
          (trace w ++ [EvFileAppend data])%list.

(** [with open("results.json", "a", encoding="utf-8") as f: ...], where
    [body] computes the text that the block writes to [f].  Mode ["a"] puts
    every byte after the present content.  When the open fails the body is
    not run; when a write or the flush at the close fails, a prefix of the
    text has reached the file. *)
Definition with_open_append (body : M string) : M unit :=
  fun env w =>
    match local_file env with
    | OpenFails e => (inl e, w)
    | FileOk =>
        match body env w with
        | (inr text, w') => (inr tt, file_append text w')
        | (inl e, w') => (inl e, w')
        end
    | WriteFails n e =>
        match body env w with
        | (inr text, w') => (inl e, file_append (str_take n text) w')
        | (inl e', w') => (inl e', w')
        end
    end.

(** [supabase.table('diagnostic_results').insert(row).execute()]; a failed
    insert leaves the table as it was. *)
Definition supabase_insert (row : pyval) : M unit :=
  fun env w =>
    match remote_insert env with
    | Some e => (inl e, w)
    | None =>
        (inr tt,
         mkWorld (results_json w) (diagnostic_results w ++ [row])%list (clock_reads w)
                 (trace w ++ [EvInsert row])%list)
    end.

(** [supabase.table('diagnostic_results').select("*").execute().data] *)
Definition supabase_select : M (list pyval) :=
  fun env w =>
    match remote_select env with
    | Some e => (inl e, w)
    | None => (inr (diagnostic_results w), record_event EvSelect w)
    end.

(** A computation without effects that may raise. *)
Definition lift (A : Type) (r : exn + A) : M A := fun _ w => (r, w).

(* ================================================================== *)
(** * Feature flags set at import time *)
(* ================================================================== *)

Definition nonempty (s : string) : bool :=
  match s with EmptyString => false | String _ _ => true end.

(** [OPENAI_ENABLED]: the key is set and starts with ["sk-"]. *)
Definition openai_enabled_at_import (OPENAI_API_KEY : string) : bool :=
  nonempty OPENAI_API_KEY && String.prefix "sk-" OPENAI_API_KEY.

(** [SUPABASE_ENABLED]: URL and key are set and [create_client] did not
    raise. *)
Definition supabase_enabled_at_import
  (SUPABASE_URL SUPABASE_KEY : string) (create_client : option exn) : bool :=
  if nonempty SUPABASE_URL && nonempty SUPABASE_KEY then
    match create_client with
    | None => true
    | Some _ => false
    end
  else false.

(* ================================================================== *)
(** * Data model *)
(* ================================================================== *)

Record UserProfile : Type := mkUserProfile {
  name : string;
  age : Z;
  department : string
}.

Record AssessmentRequest : Type := mkAssessmentRequest {
  req_profile : UserProfile;
  answers : list string;
  req_timestamp : string;
  department_questions : list string;
  quiet_responses : list string;
  heart_landscape : string
}.

Record QuietAnalysisResult : Type := mkQuietAnalysisResult {
  overview : string;
  characteristics : list string;
  qa_quiet_analysis : string;
  diagnostic_tags : list string;
  alert_indicators : list string
}.

Record AssessmentResult : Type := mkAssessmentResult {
  profile : UserProfile;
  quiet_analysis : QuietAnalysisResult;
  final_diagnosis : string;
  alert : bool;
  alert_reason : option string;
  image_prompt : string;
  image_url : option string;
  timestamp : string
}.

Definition py_optional_str (o : option string) : pyval :=
  match o with
  | Some s => PyStr s
  | None => PyNone
  end.

Definition py_str_list (l : list string) : pyval := PyList (map PyStr l).

(** [.dict()] of the pydantic models: fields in declaration order. *)
Definition UserProfile_dict (p : UserProfile) : pyval :=
  PyDict [("name", PyStr (name p));
          ("age", PyInt (age p));
          ("department", PyStr (department p))].

Definition QuietAnalysisResult_dict (q : QuietAnalysisResult) : pyval :=
  PyDict [("overview", PyStr (overview q));
          ("characteristics", py_str_list (characteristics q));
          ("quiet_analysis", PyStr (qa_quiet_analysis q));
          ("diagnostic_tags", py_str_list (diagnostic_tags q));
          ("alert_indicators", py_str_list (alert_indicators q))].

Definition AssessmentResult_dict (r : AssessmentResult) : pyval :=
  PyDict [("profile", UserProfile_dict (profile r));
          ("quiet_analysis", QuietAnalysisResult_dict (quiet_analysis r));
          ("final_diagnosis", PyStr (final_diagnosis r));
          ("alert", PyBool (alert r));
          ("alert_reason", py_optional_str (alert_reason r));
          ("image_prompt", PyStr (image_prompt r));
          ("image_url", py_optional_str (image_url r));
          ("timestamp", PyStr (timestamp r))].

(* ================================================================== *)
(** * [save_result] *)
(* ================================================================== *)

Definition AttributeError (v : pyval) (attr : string) : exn :=
  Exception "AttributeError"
    ("'" ++ type_name v ++ "' object has no attribute '" ++ attr ++ "'").

(** The [ValueError] of [int] on a string of [digits] digits, more than the
    limit. *)
Definition int_limit_error (digits : nat) : exn :=
  Exception "ValueError"
    ("Exceeds the limit (" ++ str_of_int (Z.of_nat int_max_str_digits) ++
     " digits) for integer string conversion: value has " ++
     str_of_int (Z.of_nat digits) ++
     " digits; use sys.set_int_max_str_digits() to increase the limit").

(** [int(s)] on a string for which [s.isdigit()] holds. *)
Definition py_int (s : string) : exn + Z :=
  if Nat.ltb int_max_str_digits (String.length s)
  then inl (int_limit_error (String.length s))
  else inr (int_of_str s).

(** [f"q{i+1}"] *)
Definition score_key (i : nat) : string := "q" ++ str_of_int (Z.of_nat (i + 1)).

(** The loop [for i, answer in enumerate(answers[:10])], started at index
    [i] with the dict built so far. *)
Fixpoint score_loop (i : nat) (items : list pyval) (score_data : list (string * Z))
  : exn + list (string * Z) :=
  match items with
  | [] => inr score_data
  | answer :: rest =>
      if truthy answer then
        match answer with
        | PyStr s =>
            if str_isdigit s
            then match py_int s with
                 | inr n => score_loop (S i) rest (dict_set (score_key i) n score_data)
                 | inl e => inl e
                 end
            else score_loop (S i) rest score_data
        | _ => inl (AttributeError answer "isdigit")
        end
      else score_loop (S i) rest score_data
  end.

(** The score summary of [save_result]: empty unless [answers] is a list
    of at least 10 entries. *)
Definition score_summary (answers : pyval) : exn + list (string * Z) :=
  match answers with
  | PyList l =>
      if Nat.leb 10 (length l) then score_loop 0 (firstn 10 l) [] else inr []
  | _ => inr []
  end.

Definition py_score_data (score_data : list (string * Z)) : pyval :=
  PyDict (map (fun kv => (fst kv, PyInt (snd kv))) score_data).

(** The line appended to results.json, without its final newline. *)
Definition local_record (user_id : string) (answers gpt_result : pyval) (ts : string) : pyval :=
  PyDict [("id", PyStr user_id);
          ("answers", answers);
          ("result", gpt_result);
          ("timestamp", PyStr ts)].

(** The row inserted into [diagnostic_results]. *)
Definition remote_record (user_id : string) (score_data : list (string * Z)) (gpt_result : pyval) : pyval :=
  PyDict [("user_id", PyStr user_id);
          ("score_summary", py_score_data score_data);
          ("gpt_comment", PyStr (dumps gpt_result));
          ("origin", PyStr "mindscape")].

Definition save_result (user_id : string) (answers gpt_result : pyval) : M unit :=
  try_except
    (with_open_append
       (ts <- datetime_now_isoformat ;;
        ret (dumps (local_record user_id answers gpt_result ts) ++ newline)) ;;
     env <- ask ;;
     (if SUPABASE_ENABLED env then
        try_except
          (score_data <- lift (score_summary answers) ;;
           supabase_insert (remote_record user_id score_data gpt_result) ;;
           print ("✅ Supabase保存完了: " ++ user_id))
          (fun supabase_error =>
             print ("❌ Supabase保存エラー: " ++ exc_str supabase_error))
      else ret tt) ;;
     print ("✅ 結果保存完了: " ++ user_id))
    (fun e => print ("❌ 保存エラー: " ++ exc_str e)).

(* ================================================================== *)
(** * The analysis dispatcher *)
(* ================================================================== *)

Definition fallback_analysis (quiet_responses : list string) (profile : UserProfile)
  : QuietAnalysisResult :=
  {| overview := department profile ++ "部門での安定した状態";
     characteristics := ["責任感"; "協調性"; "向上心"];
     qa_quiet_analysis := "フォールバック分析による評価";
     diagnostic_tags := ["stable_state"];
     alert_indicators := [] |}.

(** The result returned when [OPENAI_ENABLED] holds. *)
Definition openai_analysis : QuietAnalysisResult :=
  {| overview := "安定した心理状態";
     characteristics := ["バランス良好"; "前向き"; "適応力"];
     qa_quiet_analysis := "詳細分析結果";
     diagnostic_tags := ["stable"];
     alert_indicators := [] |}.

Definition analyze_quiet_responses (quiet_responses : list string) (profile : UserProfile)
  : M QuietAnalysisResult :=
  print ("🧠 分析開始: " ++ name profile) ;;
  env <- ask ;;
  if negb (OPENAI_ENABLED env) then ret (fallback_analysis quiet_responses profile)
  else ret openai_analysis.

(* ================================================================== *)
(** * The endpoints *)
(* ================================================================== *)

Record HTTPException : Type := mkHTTPException {
  status_code : Z;
  detail : string
}.

(** What an endpoint hands to the framework: the response value, or the
    [HTTPException] it raised. *)
Definition Endpoint (A : Type) : Type := Env -> World -> (HTTPException + A) * World.

(** [l[0]] *)
Definition getitem0 (l : list string) : M string :=
  match l with
  | x :: _ => ret x
  | [] => raise (Exception "IndexError" "list index out of range")
  end.

Section Orchestrator.

(** The dispatcher awaited on line 223. *)
Variable analyze : list string -> UserProfile -> M QuietAnalysisResult.

(** The [try] block of [process_assessment]. *)
Definition process_assessment_try (request : AssessmentRequest) : M AssessmentResult :=
  print ("🚀 診断処理開始: " ++ name (req_profile request)) ;;
  quiet_analysis <- analyze (quiet_responses request) (req_profile request) ;;
  let alert_flag := Nat.ltb 0 (length (alert_indicators quiet_analysis)) in
  alert_reason <- (if alert_flag
                   then (x <- getitem0 (alert_indicators quiet_analysis) ;; ret (Some x))
                   else ret None) ;;
  now <- datetime_now_isoformat ;;
  let result :=
    {| profile := req_profile request;
       quiet_analysis := quiet_analysis;
       final_diagnosis := "診断完了";
       alert := alert_flag;
       alert_reason := alert_reason;
       image_prompt := "Beautiful landscape";
       image_url := None;
       timestamp := now |} in
  save_result (name (req_profile request))
              (py_str_list (answers request))
              (AssessmentResult_dict result) ;;
  print ("✅ 診断完了: " ++ name (req_profile request)) ;;
  ret result.

(** The whole of [process_assessment]: the [except Exception] clause logs
    and raises [HTTPException(status_code=500, ...)]. *)
Definition process_assessment_with (request : AssessmentRequest) : Endpoint AssessmentResult :=
  fun env w =>
    match process_assessment_try request env w with
    | (inr result, w') => (inr result, w')
    | (inl e, w') =>
        (inl (mkHTTPException 500 ("診断処理失敗: " ++ exc_str e)),
         record_event (EvPrint ("❌ 診断処理エラー: " ++ exc_str e)) w')
    end.

End Orchestrator.

Definition process_assessment : AssessmentRequest -> Endpoint AssessmentResult :=
  process_assessment_with analyze_quiet_responses.

Definition get_supabase_results : M pyval :=
  env <- ask ;;
  if negb (SUPABASE_ENABLED env) then ret (PyDict [("error", PyStr "Supabase未設定")])
  else
    try_except
      (data <- supabase_select ;;
       ret (PyDict [("status", PyStr "success");
                    ("data", PyList data);
                    ("count", PyInt (Z.of_nat (length data)))]))
      (fun e => ret (PyDict [("error", PyStr (exc_str e))])).

(* ================================================================== *)
(** * Observations used in the statements *)
(* ================================================================== *)

(** The exception that leaves the [with open(...)] block, if any. *)
Definition local_error (o : file_outcome) : option exn :=
  match o with
  | FileOk => None
  | OpenFails e => Some e
  | WriteFails _ e => Some e
  end.

(** The exception that leaves the inner [try] block, if any. *)
Definition remote_error (env : Env) (answers : pyval) : option exn :=
  match score_summary answers with
  | inl e => Some e
  | inr _ => remote_insert env
  end.

(** Unfolding of the effects and case analysis on the environment. *)
Ltac run_py :=
  unfold save_result, get_supabase_results, analyze_quiet_responses,
    try_except, bind, with_open_append, datetime_now_isoformat, ret, raise,
    ask, lift, supabase_insert, supabase_select, print, record_event,
    file_append, local_error, remote_error;
  cbn [fst snd results_json diagnostic_results clock_reads trace].

Ltac case_env env :=
  repeat (match goal with
          | |- context [local_file env] => destruct (local_file env) eqn:?
          | |- context [SUPABASE_ENABLED env] => destruct (SUPABASE_ENABLED env) eqn:?
          | |- context [OPENAI_ENABLED env] => destruct (OPENAI_ENABLED env) eqn:?
          | |- context [score_summary ?a] => destruct (score_summary a) eqn:?
          | |- context [remote_insert env] => destruct (remote_insert env) eqn:?
          | |- context [remote_select env] => destruct (remote_select env) eqn:?
          end;
          cbn [fst snd results_json diagnostic_results clock_reads trace negb]).

(** The result assembled from an analysis [qa] stamped [now]. *)
Definition assembled (request : AssessmentRequest) (qa : QuietAnalysisResult) (now : string)
  : AssessmentResult :=
  {| profile := req_profile request;
     quiet_analysis := qa;
     final_diagnosis := "診断完了";
     alert := Nat.ltb 0 (length (alert_indicators qa));
     alert_reason := if Nat.ltb 0 (length (alert_indicators qa))
                     then hd_error (alert_indicators qa) else None;
     image_prompt := "Beautiful landscape";
     image_url := None;
     timestamp := now |}.

Definition started (request : AssessmentRequest) (w : World) : World :=
  record_event (EvPrint ("🚀 診断処理開始: " ++ name (req_profile request))) w.

(* ================================================================== *)
(** * Sample inputs *)
(* ================================================================== *)

Definition sample_clock (n : nat) : string :=
  "2024-05-01T09:30:0" ++ str_of_int (Z.of_nat n).

Definition sample_env (openai supabase : bool) (file : file_outcome)
  (insert : option exn) : Env :=
  mkEnv openai supabase sample_clock file insert None.

Definition empty_world : World := mkWorld EmptyString [] 0 [].

Definition sample_request : AssessmentRequest :=
  {| req_profile := mkUserProfile "Aiko" 34 "営業";
     answers := ["3"; "4"; "x"; "2"; "1"; "5"; "2"; "3"; "4"; "1"];
     req_timestamp := "2024-05-01T09:29:58";
     department_questions := [];
     quiet_responses := ["I feel fine"; "stable"];
     heart_landscape := "calm sea" |}.

(** A dispatcher that reports two alert indicators. *)
Definition alarming_dispatcher (qr : list string) (p : UserProfile) : M QuietAnalysisResult :=
  ret (mkQuietAnalysisResult "strained" ["tired"] "text" ["overload"]
         ["burnout"; "insomnia"]).

(* ================================================================== *)
(** * The health endpoint and further observations *)
(* ================================================================== *)

Definition SYSTEM_NAME : string := "Mindscape Diagnosis Enterprise".

(** [DISCORD_ENABLED = bool(DISCORD_BOT_TOKEN and DISCORD_CHANNEL_ID)] *)
Definition discord_enabled_at_import (DISCORD_BOT_TOKEN DISCORD_CHANNEL_ID : string) : bool :=
  nonempty DISCORD_BOT_TOKEN && nonempty DISCORD_CHANNEL_ID.

(** [health_check]; [DISCORD_ENABLED] is the third module flag. *)
Definition health_check (DISCORD_ENABLED : bool) : M pyval :=
  now <- datetime_now_isoformat ;;
  env <- ask ;;
  ret (PyDict [("status", PyStr "healthy");
               ("service", PyStr SYSTEM_NAME);
               ("version", PyStr "2.1.0");
               ("timestamp", PyStr now);
               ("features",
                PyDict [("openai_enabled", PyBool (OPENAI_ENABLED env));
                        ("supabase_enabled", PyBool (SUPABASE_ENABLED env));
                        ("discord_enabled", PyBool DISCORD_ENABLED)])]).

(** The text is not a digit string that [int] refuses for its length. *)
Definition within_int_limit (s : string) : bool :=
  negb (str_isdigit s) || Nat.leb (String.length s) int_max_str_digits.

(** An entry at which the loop of [save_result] raises: a truthy entry that
    is not a [str], on which [.isdigit()] does not exist, or a digit string
    that [int] refuses for its length. *)
Definition raising_answer (v : pyval) : bool :=
  match v with
  | PyStr s => negb (within_int_limit s)
  | _ => truthy v
  end.

(** The exception raised at such an entry. *)
Definition answer_error (v : pyval) : exn :=
  match v with
  | PyStr s => int_limit_error (String.length s)
  | _ => AttributeError v "isdigit"
  end.

(** The answers of a request whose first 10 entries, when there are 10, are
    written in ASCII and hold no digit string beyond the limit of [int]. *)
Definition scorable (l : list string) : bool :=
  Nat.ltb (length l) 10 ||
  forallb (fun s => ascii_only s && within_int_limit s) (firstn 10 l).

(** [c * n] *)
Fixpoint str_repeat (c : ascii) (n : nat) : string :=
  match n with
  | O => EmptyString
  | S k => String c (str_repeat c k)
  end.

(** An entry that, when it is a [str], is written in ASCII. *)
Definition ascii_answer (v : pyval) : bool :=
  match v with
  | PyStr s => ascii_only s
  | _ => true
  end.

(** Some character of the text is a control character (below 0x20). *)
Fixpoint has_control (s : string) : bool :=
  match s with
  | EmptyString => false
  | String c r => Nat.ltb (nat_of_ascii c) 32 || has_control r
  end.


(** [payload["features"][flag]] of a health payload. *)
Definition health_feature (payload : pyval) (flag : string) : option pyval :=
  match payload with
  | PyDict fields =>
      match dict_get "features" fields with
      | Some (PyDict features) => dict_get flag features
      | _ => None
      end
  | _ => None
  end.

(** The world after one more reading of the clock. *)
Definition clock_tick (w : World) : World :=
  mkWorld (results_json w) (diagnostic_results w) (S (clock_reads w)) (trace w).

(** The world in which [process_assessment] calls [save_result]: both
    start-up lines are printed and the clock has been read once. *)
Definition before_save (request : AssessmentRequest) (w : World) : World :=
  clock_tick
    (record_event (EvPrint ("🧠 分析開始: " ++ name (req_profile request)))
       (started request w)).

(* ================================================================== *)
(** * Facts about strings, decimal numerals and dicts *)
(* ================================================================== *)

Lemma count_char_app (c : ascii) (a b : string) :
  count_char c (a ++ b) = count_char c a + count_char c b.
Proof.
  induction a as [|x a IH]; simpl; [reflexivity|].
  rewrite IH. apply Nat.add_assoc.
Qed.

Lemma string_app_nil_r (a : string) : a ++ EmptyString = a.
Proof.
  induction a as [|x a IH]; simpl; [reflexivity | now rewrite IH].
Qed.

(** The [json] encoder never emits a raw line feed. *)
Lemma escape_char_no_newline (c : ascii) :
  count_char newline_char (escape_char c) = 0.
Proof.
  destruct c as [[] [] [] [] [] [] [] []]; reflexivity.
Qed.

Lemma escape_string_no_newline (s : string) :
  count_char newline_char (escape_string s) = 0.
Proof.
  induction s as [|c s IH]; simpl; [reflexivity|].
  now rewrite count_char_app, escape_char_no_newline, IH.
Qed.

Lemma encode_basestring_no_newline (s : string) :
  count_char newline_char (encode_basestring s) = 0.
Proof.
  unfold encode_basestring. simpl.
  now rewrite count_char_app, escape_string_no_newline.
Qed.

Lemma string_of_uint_no_newline (d : Decimal.uint) :
  count_char newline_char (DecimalString.NilEmpty.string_of_uint d) = 0.
Proof.
  induction d; simpl; auto.
Qed.

Lemma str_of_int_no_newline (n : Z) :
  count_char newline_char (str_of_int n) = 0.
Proof.
  unfold str_of_int, DecimalString.NilZero.string_of_int, DecimalString.NilZero.string_of_uint.
  destruct (Z.to_int n) as [d|d]; destruct d; simpl;
    auto using string_of_uint_no_newline.
Qed.

Lemma join_no_newline (parts : list string) :
  Forall (fun p => count_char newline_char p = 0) parts ->
  count_char newline_char (join ", " parts) = 0.
Proof.
  induction 1 as [|p rest Hp Hrest IH]; [reflexivity|].
  destruct rest as [|q rest]; [exact Hp|].
  change (join ", " (p :: q :: rest)) with (p ++ ", " ++ join ", " (q :: rest)).
  rewrite !count_char_app, Hp, IH. reflexivity.
Qed.

Lemma dumps_no_newline (v : pyval) : count_char newline_char (dumps v) = 0.
Proof.
  induction v as [| [] | n | s | l IH | d IH] using pyval_rect_nested;
    try reflexivity.
  - apply str_of_int_no_newline.
  - apply encode_basestring_no_newline.
  - cbn [dumps]. rewrite !count_char_app, join_no_newline; [reflexivity|].
    induction IH; constructor; auto.
  - cbn [dumps]. rewrite !count_char_app, join_no_newline; [reflexivity|].
    induction IH as [|kv r Hkv Hr IHr]; constructor; auto.
    now rewrite !count_char_app, encode_basestring_no_newline, Hkv.
Qed.

(** Decimal numerals determine the integer. *)
Lemma str_of_int_inj (a b : Z) : str_of_int a = str_of_int b -> a = b.
Proof.
  unfold str_of_int. intros H.
  apply DecimalZ.to_int_inj.
  assert (Hnn : forall z, Z.to_int z <> Decimal.Pos Decimal.Nil /\ Z.to_int z <> Decimal.Neg Decimal.Nil).
  { intros [|p|p]; simpl; split; try discriminate;
      intros [= Hp]; now apply (DecimalPos.Unsigned.to_uint_nonnil p). }
  pose proof (DecimalString.NilZero.isi (Z.to_int a) (proj1 (Hnn a)) (proj2 (Hnn a))) as Ha.
  pose proof (DecimalString.NilZero.isi (Z.to_int b) (proj1 (Hnn b)) (proj2 (Hnn b))) as Hb.
  rewrite H in Ha. rewrite Ha in Hb. now injection Hb.
Qed.

Lemma score_key_inj (i j : nat) : score_key i = score_key j -> i = j.
Proof.
  unfold score_key. intros H. injection H as H.
  apply str_of_int_inj in H. lia.
Qed.

Section dicts.
Variable A : Type.
Implicit Types (k : string) (v : A) (d : list (string * A)).

Lemma dict_get_set_same k v d : dict_get k (dict_set k v d) = Some v.
Proof.
  induction d as [|[k' v'] d IH]; simpl.
  - now rewrite String.eqb_refl.
  - destruct (String.eqb k' k) eqn:E; simpl.
    + now rewrite String.eqb_refl.
    + now rewrite E.
Qed.

Lemma dict_get_set_other k k0 v d :
  k0 <> k -> dict_get k (dict_set k0 v d) = dict_get k d.
Proof.
  intros Hne. induction d as [|[k' v'] d IH]; simpl.
  - apply String.eqb_neq in Hne. now rewrite Hne.
  - destruct (String.eqb k' k0) eqn:E; simpl.
    + apply String.eqb_eq in E; subst k'.
      apply String.eqb_neq in Hne. now rewrite Hne.
    + now rewrite IH.
Qed.

Lemma dict_set_length k v d : length (dict_set k v d) <= S (length d).
Proof.
  induction d as [|[k' v'] d IH]; simpl; [lia|].
  destruct (String.eqb k' k); simpl; lia.
Qed.

Lemma dict_set_keys k v d k1 :
  In k1 (map fst (dict_set k v d)) -> k1 = k \/ In k1 (map fst d).
Proof.
  induction d as [|[k' v'] d IH]; simpl.
  - intros [H|[]]; auto.
  - destruct (String.eqb k' k) eqn:E; simpl.
    + intros [H|H]; auto.
    + intros [H|H]; auto. destruct (IH H); auto.
Qed.

Lemma dict_set_NoDup k v d :
  NoDup (map fst d) -> NoDup (map fst (dict_set k v d)).
Proof.
  induction d as [|[k' v'] d IH]; simpl; intros Hnd.
  - constructor; [intros []|constructor].
  - inversion Hnd as [|? ? Hnotin Hnd']; subst.
    destruct (String.eqb k' k) eqn:E; simpl.
    + apply String.eqb_eq in E; subst k'. now constructor.
    + constructor; [|auto].
      intros Hin. apply dict_set_keys in Hin as [->|Hin]; [|auto].
      now rewrite String.eqb_refl in E.
Qed.

End dicts.

(* ================================================================== *)
(** * The score summary *)
(* ================================================================== *)

(** [int] reads a digit string that is within the limit. *)
Lemma py_int_within_limit (s : string) :
  str_isdigit s = true -> within_int_limit s = true -> py_int s = inr (int_of_str s).
Proof.
  unfold within_int_limit, py_int. intros -> Hlim. cbn [negb orb] in Hlim.
  apply Nat.leb_le in Hlim.
  destruct (Nat.ltb_spec int_max_str_digits (String.length s)); [lia|reflexivity].
Qed.

(** [int] refuses a digit string beyond the limit. *)
Lemma py_int_beyond_limit (s : string) :
  str_isdigit s = true -> within_int_limit s = false ->
  py_int s = inl (int_limit_error (String.length s)).
Proof.
  unfold within_int_limit, py_int. intros -> Hlim. cbn [negb orb] in Hlim.
  apply Nat.leb_gt in Hlim.
  destruct (Nat.ltb_spec int_max_str_digits (String.length s)); [reflexivity|lia].
Qed.

(** One round of the loop on a string entry, as the source has it. *)
Lemma score_loop_str_unfold (i : nat) (s : string) (rest : list pyval) (sd : list (string * Z)) :
  score_loop i (PyStr s :: rest) sd =
  if str_isdigit s
  then match py_int s with
       | inr n => score_loop (S i) rest (dict_set (score_key i) n sd)
       | inl e => inl e
       end
  else score_loop (S i) rest sd.
Proof.
  destruct s as [|c s]; reflexivity.
Qed.

(** One round of the loop on a string entry within the limit. *)
Lemma score_loop_str_cons (i : nat) (s : string) (rest : list pyval) (sd : list (string * Z)) :
  within_int_limit s = true ->
  score_loop i (PyStr s :: rest) sd =
  score_loop (S i) rest
    (if str_isdigit s then dict_set (score_key i) (int_of_str s) sd else sd).
Proof.
  intros Hlim. rewrite score_loop_str_unfold.
  destruct (str_isdigit s) eqn:Hdig; [|reflexivity].
  now rewrite (py_int_within_limit s Hdig Hlim).
Qed.

Lemma score_key_decide (n : nat) (k : string) :
  (exists j, j < n /\ k = score_key j) \/ (forall j, j < n -> k <> score_key j).
Proof.
  induction n as [|n [[j [Hj Hk]]|Hnone]].
  - right. intros j Hj. lia.
  - left. exists j. split; [lia|exact Hk].
  - destruct (string_dec k (score_key n)) as [Hk|Hk].
    + left. exists n. split; [lia|exact Hk].
    + right. intros j Hj. destruct (Nat.eq_dec j n) as [->|Hne]; [exact Hk|].
      apply Hnone. lia.
Qed.

(** The loop over string entries never raises; it sets exactly the keys of
    the positions that hold digit strings and leaves every other key as it
    was. *)
Lemma score_loop_strings (items : list string) :
  Forall (fun s => within_int_limit s = true) items ->
  forall (i : nat) (sd : list (string * Z)),
  exists sd',
    score_loop i (map PyStr items) sd = inr sd' /\
    (forall j, j < length items ->
       dict_get (score_key (i + j)) sd' =
       if str_isdigit (nth j items EmptyString)
       then Some (int_of_str (nth j items EmptyString))
       else dict_get (score_key (i + j)) sd) /\
    (forall k, (forall j, j < length items -> k <> score_key (i + j)) ->
       dict_get k sd' = dict_get k sd) /\
    length sd' <= length sd + length items /\
    (NoDup (map fst sd) -> NoDup (map fst sd')).
Proof.
  induction 1 as [|s rest Hs Hrest IH]; intros i sd.
  - exists sd. simpl. repeat split; auto; try lia; intros j Hj; lia.
  - cbn [map]. rewrite score_loop_str_cons by exact Hs.
    set (sd1 := if str_isdigit s then dict_set (score_key i) (int_of_str s) sd else sd).
    assert (Hhere : dict_get (score_key i) sd1 =
                    if str_isdigit s then Some (int_of_str s)
                    else dict_get (score_key i) sd).
    { subst sd1. destruct (str_isdigit s); [apply dict_get_set_same|reflexivity]. }
    assert (Hother : forall k, k <> score_key i -> dict_get k sd1 = dict_get k sd).
    { intros k Hk. subst sd1. destruct (str_isdigit s); [|reflexivity].
      apply dict_get_set_other. congruence. }
    assert (Hlen : length sd1 <= S (length sd)).
    { subst sd1. destruct (str_isdigit s); [apply dict_set_length|lia]. }
    assert (Hnd : NoDup (map fst sd) -> NoDup (map fst sd1)).
    { subst sd1. destruct (str_isdigit s); [apply dict_set_NoDup|auto]. }
    destruct (IH (S i) sd1) as (sd' & Hrun & Hset & Hframe & Hlen' & Hnd').
    exists sd'. split; [exact Hrun|]. repeat split.
    + intros [|j] Hj; cbn [nth].
      * rewrite Nat.add_0_r, Hframe; [exact Hhere|].
        intros j Hj' Heq. apply score_key_inj in Heq. lia.
      * replace (i + S j) with (S i + j) by lia.
        rewrite Hset by (simpl in Hj; lia).
        destruct (str_isdigit (nth j rest EmptyString)); [reflexivity|].
        apply Hother. intros Heq. apply score_key_inj in Heq. lia.
    + intros k Hk. rewrite Hframe.
      * apply Hother. specialize (Hk 0). rewrite Nat.add_0_r in Hk.
        apply Hk. simpl. lia.
      * intros j Hj. replace (S i + j) with (i + S j) by lia.
        apply Hk. simpl. lia.
    + simpl. lia.
    + auto.
Qed.

(* ================================================================== *)
(** * The result sink *)
(* ================================================================== *)

Lemma save_result_returns (user_id : string) (answers gpt_result : pyval)
      (env : Env) (w : World) :
  fst (save_result user_id answers gpt_result env w) = inr tt.
Proof.
  run_py. case_env env; reflexivity.
Qed.

(* ================================================================== *)
(** * The dispatcher and the orchestrator *)
(* ================================================================== *)

Lemma analyze_quiet_responses_run (qr : list string) (p : UserProfile)
      (env : Env) (w : World) :
  analyze_quiet_responses qr p env w =
  (inr (if OPENAI_ENABLED env then openai_analysis else fallback_analysis qr p),
   record_event (EvPrint ("🧠 分析開始: " ++ name p)) w).
Proof.
  run_py. now destruct (OPENAI_ENABLED env).
Qed.

Section Orchestrator_facts.
Variable analyze : list string -> UserProfile -> M QuietAnalysisResult.
Variables (request : AssessmentRequest) (env : Env) (w w1 : World).

(** A dispatcher that returns lets the orchestrator return, whatever the
    sink does. *)
Lemma process_assessment_with_returns (qa : QuietAnalysisResult) :
  analyze (quiet_responses request) (req_profile request) env (started request w)
    = (inr qa, w1) ->
  fst (process_assessment_with analyze request env w)
    = inr (assembled request qa (isoformat_now env (clock_reads w1))).
Proof.
  intros Hrun.
  unfold process_assessment_with, process_assessment_try, bind at 1 2.
  unfold print at 1. fold (started request w). rewrite Hrun.
  unfold assembled.
  destruct (alert_indicators qa) as [|ind inds] eqn:Hind;
    cbn [length Nat.ltb Nat.leb getitem0 hd_error];
    cbv [bind ret datetime_now_isoformat print record_event];
    cbn [clock_reads];
    match goal with
    | |- context [save_result ?u ?a ?g ?e ?x] =>
        pose proof (save_result_returns u a g e x) as Hsave;
        destruct (save_result u a g e x) as [[err|[]] w2]
    end; try discriminate Hsave; reflexivity.
Qed.

(** An exception of the dispatcher reaches the [except] clause and becomes
    a 500. *)
Lemma process_assessment_with_raises (e : exn) :
  analyze (quiet_responses request) (req_profile request) env (started request w)
    = (inl e, w1) ->
  process_assessment_with analyze request env w
    = (inl (mkHTTPException 500 ("診断処理失敗: " ++ exc_str e)),
       record_event (EvPrint ("❌ 診断処理エラー: " ++ exc_str e)) w1).
Proof.
  intros Hrun.
  unfold process_assessment_with, process_assessment_try, bind at 1 2.
  unfold print at 1. fold (started request w). now rewrite Hrun.
Qed.

End Orchestrator_facts.

Lemma process_assessment_result (request : AssessmentRequest) (env : Env) (w : World) :
  fst (process_assessment request env w)
  = inr (assembled request
           (if OPENAI_ENABLED env then openai_analysis
            else fallback_analysis (quiet_responses request) (req_profile request))
           (isoformat_now env (clock_reads w))).
Proof.
  unfold process_assessment.
  erewrite process_assessment_with_returns by apply analyze_quiet_responses_run.
  reflexivity.
Qed.

(* ================================================================== *)
(** * The claims about the dispatcher and the orchestrator *)
(* ================================================================== *)

(** C1. For every request [process_assessment] returns an
    [AssessmentResult] whose [alert] equals
    [len(quiet_analysis.alert_indicators) > 0] and whose [alert_reason] is the
    first alert indicator when [alert] holds and [None] otherwise.  The
    derivation is the same for whatever analysis the awaited dispatcher
    returns. *)
Theorem process_assessment_alert :
  (forall request env w,
     exists result,
       fst (process_assessment request env w) = inr result /\
       alert result = Nat.ltb 0 (length (alert_indicators (quiet_analysis result))) /\
       alert_reason result =
         if alert result then hd_error (alert_indicators (quiet_analysis result))
         else None) /\
  (forall analyze request env w qa w1,
     analyze (quiet_responses request) (req_profile request) env (started request w)
       = (inr qa, w1) ->
     exists result,
       fst (process_assessment_with analyze request env w) = inr result /\
       quiet_analysis result = qa /\
       alert result = Nat.ltb 0 (length (alert_indicators qa)) /\
       alert_reason result =
         if alert result then hd_error (alert_indicators qa) else None).
Proof.
  split.
  - intros request env w. eexists. split; [apply process_assessment_result|].
    split; reflexivity.
  - intros analyze request env w qa w1 Hrun. eexists.
    split; [eapply process_assessment_with_returns; exact Hrun|].
    repeat split; reflexivity.
Qed.

Lemma process_assessment_alert_witness :
  exists result,
    fst (process_assessment_with alarming_dispatcher sample_request
           (sample_env true true FileOk None) empty_world) = inr result /\
    alert result = true /\
    alert_reason result = Some "burnout".
Proof.
  destruct (proj2 process_assessment_alert alarming_dispatcher sample_request
              (sample_env true true FileOk None) empty_world _ _ eq_refl)
    as (result & Hres & Hqa & Halert & Hreason).
  exists result. split; [exact Hres|].
  rewrite Hreason, Halert. split; reflexivity.
Defined.

(** C2. [analyze_quiet_responses] returns one of two fixed results, chosen
    by [OPENAI_ENABLED] alone; the fallback takes only [profile.department]
    from its input; both have no alert indicators, so every result of
    [process_assessment] has [alert = False] and [alert_reason = None]. *)
Theorem analysis_constant_never_alerts :
  (forall qr p env w,
     fst (analyze_quiet_responses qr p env w)
     = inr (if OPENAI_ENABLED env then openai_analysis else fallback_analysis qr p)) /\
  openai_analysis
  = mkQuietAnalysisResult "安定した心理状態" ["バランス良好"; "前向き"; "適応力"]
      "詳細分析結果" ["stable"] [] /\
  (forall qr p,
     fallback_analysis qr p
     = mkQuietAnalysisResult (department p ++ "部門での安定した状態")
         ["責任感"; "協調性"; "向上心"] "フォールバック分析による評価"
         ["stable_state"] []) /\
  (forall request env w,
     exists result,
       fst (process_assessment request env w) = inr result /\
       alert result = false /\
       alert_reason result = None).
Proof.
  split; [|split; [reflexivity|split; [reflexivity|]]].
  - intros qr p env w. now rewrite analyze_quiet_responses_run.
  - intros request env w. eexists. split; [apply process_assessment_result|].
    destruct (OPENAI_ENABLED env); split; reflexivity.
Qed.

(** C7. With [OPENAI_ENABLED] false the dispatcher returns the fallback
    result and does not raise; a request whose [quiet_responses] are
    ["I feel fine", "stable"] yields [diagnostic_tags = ["stable_state"]],
    [alert = False] and [alert_reason = None]. *)
Theorem disabled_analysis_is_fallback (env : Env) (w : World) :
  OPENAI_ENABLED env = false ->
  (forall qr p,
     fst (analyze_quiet_responses qr p env w) = inr (fallback_analysis qr p)) /\
  (forall request,
     quiet_responses request = ["I feel fine"; "stable"] ->
     exists result,
       fst (process_assessment request env w) = inr result /\
       diagnostic_tags (quiet_analysis result) = ["stable_state"] /\
       alert result = false /\
       alert_reason result = None).
Proof.
  intros Hoff. split.
  - intros qr p. now rewrite analyze_quiet_responses_run, Hoff.
  - intros request _. eexists. split; [apply process_assessment_result|].
    rewrite Hoff. repeat split; reflexivity.
Qed.

Lemma disabled_analysis_is_fallback_witness :
  exists result,
    fst (process_assessment sample_request (sample_env false false FileOk None)
           empty_world) = inr result /\
    diagnostic_tags (quiet_analysis result) = ["stable_state"] /\
    alert result = false /\
    alert_reason result = None.
Proof.
  exact (proj2 (disabled_analysis_is_fallback
                  (sample_env false false FileOk None) empty_world eq_refl)
               sample_request eq_refl).
Defined.

(* ================================================================== *)
(** * The claims about the result sink *)
(* ================================================================== *)


(** C8. A call whose local append succeeds adds to results.json exactly
    the JSON text of [{id, answers, result, timestamp}] and a newline, that
    is exactly one line, whether the Supabase step succeeds, fails or is
    skipped; and in every case the earlier content stays in place as a
    prefix. *)
Theorem save_result_appends_one_line
        (user_id : string) (answers gpt_result : pyval) (env : Env) (w : World) :
  let w' := snd (save_result user_id answers gpt_result env w) in
  (exists added, results_json w' = results_json w ++ added) /\
  (local_file env = FileOk ->
   results_json w' =
     results_json w ++
     dumps (PyDict [("id", PyStr user_id);
                    ("answers", answers);
                    ("result", gpt_result);
                    ("timestamp", PyStr (isoformat_now env (clock_reads w)))]) ++
     newline /\
   count_char newline_char (results_json w')
   = S (count_char newline_char (results_json w))).
Proof.
  cbv zeta. split.
  - run_py. case_env env;
      try (eexists; reflexivity);
      exists EmptyString; now rewrite string_app_nil_r.
  - intros Hok.
    assert (Hfile : results_json (snd (save_result user_id answers gpt_result env w))
                    = results_json w ++
                      dumps (local_record user_id answers gpt_result
                               (isoformat_now env (clock_reads w))) ++ newline).
    { run_py. rewrite Hok. case_env env; reflexivity. }
    split; [exact Hfile|].
    rewrite Hfile, !count_char_app, dumps_no_newline. simpl. lia.
Qed.

Lemma save_result_appends_one_line_witness :
  results_json
    (snd (save_result "Aiko" (py_str_list ["3"; "x"]) (PyDict [("alert", PyBool false)])
            (sample_env false true FileOk (Some (Exception "APIError" "503")))
            (mkWorld ("{}" ++ newline) [] 0 [])))
  = "{}" ++ newline ++
    dumps (PyDict [("id", PyStr "Aiko");
                   ("answers", py_str_list ["3"; "x"]);
                   ("result", PyDict [("alert", PyBool false)]);
                   ("timestamp", PyStr "2024-05-01T09:30:00")]) ++
    newline.
Proof.
  exact (proj1 (proj2 (save_result_appends_one_line "Aiko" (py_str_list ["3"; "x"])
                         (PyDict [("alert", PyBool false)])
                         (sample_env false true FileOk (Some (Exception "APIError" "503")))
                         (mkWorld ("{}" ++ newline) [] 0 []))
                      eq_refl)).
Defined.

(** The row that a successful remote step adds to the table. *)
Lemma save_result_inserts (user_id : string) (answers gpt_result : pyval)
      (env : Env) (w : World) (sd : list (string * Z)) :
  local_file env = FileOk ->
  SUPABASE_ENABLED env = true ->
  remote_insert env = None ->
  score_summary answers = inr sd ->
  diagnostic_results (snd (save_result user_id answers gpt_result env w))
  = (diagnostic_results w ++ [remote_record user_id sd gpt_result])%list.
Proof.
  intros Hfile Hon Hins Hsd. run_py. now rewrite Hfile, Hon, Hsd, Hins.
Qed.

(** C5, as the code has it.  The local append comes first and the remote
    step runs only after it has succeeded: a failure of the local write is
    printed by the outer handler and the insert is not attempted; the content
    of results.json does not depend on whether the remote step is enabled,
    succeeds or fails; and every insert of the call is preceded by the append
    of the complete local line. *)
Theorem save_result_local_then_remote
        (user_id : string) (answers gpt_result : pyval) (env : Env) (w : World) :
  let w' := snd (save_result user_id answers gpt_result env w) in
  exists evs,
    trace w' = (trace w ++ evs)%list /\
    (forall e, local_error (local_file env) = Some e ->
       In (EvPrint ("❌ 保存エラー: " ++ exc_str e)) evs /\
       diagnostic_results w' = diagnostic_results w /\
       forall row, ~ In (EvInsert row) evs) /\
    results_json w'
    = results_json
        (snd (save_result user_id answers gpt_result
                (mkEnv (OPENAI_ENABLED env) false (isoformat_now env)
                       (local_file env) None None) w)) /\
    (forall row, In (EvInsert row) evs ->
       local_file env = FileOk /\
       exists rest,
         evs = EvFileAppend
                 (dumps (local_record user_id answers gpt_result
                           (isoformat_now env (clock_reads w))) ++ newline) :: rest /\
         In (EvInsert row) rest).
Proof.
  cbv zeta. run_py. cbn [local_file SUPABASE_ENABLED isoformat_now].
  case_env env; rewrite <- ?app_assoc; cbn [app];
    eexists; (split; [reflexivity|]); cbn [In];
    (split; [intros e0 He0; try discriminate He0; injection He0 as <-;
             repeat split; auto; intros row Hrow;
             repeat destruct Hrow as [Hrow|Hrow]; discriminate || contradiction
            |split; [reflexivity|]]);
    intros row Hrow;
    repeat (destruct Hrow as [Hrow|Hrow]; try discriminate Hrow);
    try contradiction;
    (split; [reflexivity|]); eexists; (split; [reflexivity|]);
    cbn [In]; auto.
Qed.

Lemma save_result_local_then_remote_witness :
  diagnostic_results
    (snd (save_result "Aiko" (py_str_list (answers sample_request)) (PyDict [])
            (sample_env false true
               (OpenFails (Exception "PermissionError" "[Errno 13] Permission denied"))
               None)
            empty_world))
  = [].
Proof.
  destruct (save_result_local_then_remote "Aiko"
              (py_str_list (answers sample_request)) (PyDict [])
              (sample_env false true
                 (OpenFails (Exception "PermissionError" "[Errno 13] Permission denied"))
                 None)
              empty_world)
    as (evs & _ & Hlocal & _).
  exact (proj1 (proj2 (Hlocal _ eq_refl))).
Defined.

(** C5 as stated fails: with Supabase enabled and its insert ready to
    succeed, a failing open of results.json leaves the table without the
    record; the same call with a working file inserts it. *)
Lemma local_failure_blocks_remote :
  diagnostic_results
    (snd (save_result "Aiko" (py_str_list (answers sample_request)) (PyDict [])
            (sample_env false true
               (OpenFails (Exception "PermissionError" "[Errno 13] Permission denied"))
               None)
            empty_world))
  = [] /\
  trace
    (snd (save_result "Aiko" (py_str_list (answers sample_request)) (PyDict [])
            (sample_env false true
               (OpenFails (Exception "PermissionError" "[Errno 13] Permission denied"))
               None)
            empty_world))
  = [EvPrint "❌ 保存エラー: [Errno 13] Permission denied"] /\
  length
    (diagnostic_results
       (snd (save_result "Aiko" (py_str_list (answers sample_request)) (PyDict [])
               (sample_env false true FileOk None) empty_world)))
  = 1.
Proof.
  repeat split; reflexivity.
Qed.

Lemma int_of_digits_lower (s : string) (acc : Z) :
  (0 <= acc -> acc <= int_of_digits acc s)%Z.
Proof.
  revert acc; induction s as [|c s IH]; intros acc Hacc; cbn [int_of_digits]; [lia|].
  specialize (IH (10 * acc + Z.of_nat (nat_of_ascii c - 48))%Z). lia.
Qed.

Lemma int_of_str_nonneg (s : string) : (0 <= int_of_str s)%Z.
Proof.
  apply int_of_digits_lower. lia.
Qed.

(** C10. When [answers] is not a list or has fewer than 10 entries the
    score summary is the empty dict, whatever the entries are, and that is
    what the inserted row carries. *)
Theorem short_answers_empty_summary (answers : pyval) :
  (forall l, answers = PyList l -> length l < 10) ->
  score_summary answers = inr [] /\
  forall user_id gpt_result env w,
    local_file env = FileOk ->
    SUPABASE_ENABLED env = true ->
    remote_insert env = None ->
    diagnostic_results (snd (save_result user_id answers gpt_result env w))
    = (diagnostic_results w ++
       [PyDict [("user_id", PyStr user_id);
                ("score_summary", PyDict []);
                ("gpt_comment", PyStr (dumps gpt_result));
                ("origin", PyStr "mindscape")]])%list.
Proof.
  intros Hshort.
  assert (Hsd : score_summary answers = inr []).
  { destruct answers as [| | | |l|]; try reflexivity.
    unfold score_summary. specialize (Hshort l eq_refl).
    destruct (Nat.leb_spec 10 (length l)); [lia|reflexivity]. }
  split; [exact Hsd|].
  intros user_id gpt_result env w Hfile Hon Hins.
  now rewrite (@save_result_inserts user_id answers gpt_result env w [] Hfile Hon Hins Hsd).
Qed.

Lemma short_answers_empty_summary_witness :
  score_summary (py_str_list ["3"; "4"; "5"; "1"; "2"; "3"; "4"; "5"; "1"]) = inr [].
Proof.
  refine (proj1 (@short_answers_empty_summary
                   (py_str_list ["3"; "4"; "5"; "1"; "2"; "3"; "4"; "5"; "1"]) _)).
  intros l [= <-]. simpl. lia.
Defined.

(** C4, as the code has it.  For a list of at least 10 answers, the first
    10 written in ASCII and none of them a digit string longer than the 4300
    digits that [int] converts, the score summary is built from the first 10
    entries without raising: the entry at position [i] (from 0) is recorded
    under the key of its position, ["q1"] to ["q10"], as the non-negative
    integer it denotes exactly when it is a non-empty string of digits, no
    other key is present, there are at most 10 keys, and the inserted row
    carries this dict. *)
Theorem score_summary_of_ten_answers (l : list string) :
  10 <= length l ->
  Forall (fun s => ascii_only s = true) (firstn 10 l) ->
  Forall (fun s => within_int_limit s = true) (firstn 10 l) ->
  exists sd,
    score_summary (py_str_list l) = inr sd /\
    map score_key (seq 0 10)
    = ["q1"; "q2"; "q3"; "q4"; "q5"; "q6"; "q7"; "q8"; "q9"; "q10"] /\
    (forall i, i < 10 ->
       dict_get (score_key i) sd =
       if str_isdigit (nth i l EmptyString) then Some (int_of_str (nth i l EmptyString)) else None) /\
    (forall k v, dict_get k sd = Some v ->
       (0 <= v)%Z /\ exists i, i < 10 /\ k = score_key i) /\
    length sd <= 10 /\
    NoDup (map fst sd) /\
    (forall user_id gpt_result env w,
       local_file env = FileOk ->
       SUPABASE_ENABLED env = true ->
       remote_insert env = None ->
       diagnostic_results
         (snd (save_result user_id (py_str_list l) gpt_result env w))
       = (diagnostic_results w ++ [remote_record user_id sd gpt_result])%list).
Proof.
  intros Hlen _ Hlimit.
  destruct (score_loop_strings Hlimit 0 []) as (sd & Hrun & Hset & Hframe & Hsize & Hnd).
  assert (Hten : length (firstn 10 l) = 10) by (rewrite length_firstn; lia).
  assert (Hnth : forall i, i < 10 -> nth i (firstn 10 l) EmptyString = nth i l EmptyString).
  { intros i Hi. rewrite <- (firstn_skipn 10 l) at 2.
    rewrite app_nth1; [reflexivity|lia]. }
  assert (Hsd : score_summary (py_str_list l) = inr sd).
  { unfold score_summary, py_str_list. rewrite length_map.
    destruct (Nat.leb_spec 10 (length l)); [|lia].
    now rewrite firstn_map. }
  rewrite Hten in *. exists sd. split; [exact Hsd|]. split; [reflexivity|].
  assert (Hget : forall i, i < 10 ->
            dict_get (score_key i) sd =
            if str_isdigit (nth i l EmptyString) then Some (int_of_str (nth i l EmptyString)) else None).
  { intros i Hi. specialize (Hset i Hi). cbn [Nat.add] in Hset.
    now rewrite (Hnth i Hi) in Hset. }
  split; [exact Hget|]. split; [|split; [exact Hsize|split; [apply Hnd; constructor|]]].
  - intros k v Hk.
    destruct (score_key_decide 10 k) as [(i & Hi & ->)|Hnone].
    + rewrite (Hget i Hi) in Hk.
      destruct (str_isdigit (nth i l EmptyString)); [|discriminate].
      injection Hk as <-. split; [apply int_of_str_nonneg|eauto].
    + rewrite Hframe in Hk; [discriminate|]. exact Hnone.
  - intros user_id gpt_result env w Hfile Hon Hins.
    exact (@save_result_inserts user_id _ gpt_result env w sd Hfile Hon Hins Hsd).
Qed.

Lemma score_summary_of_ten_answers_witness :
  exists sd,
    score_summary (py_str_list ["3"; "4"; "x"; "2"; "1"; "5"; "2"; "3"; "4"; "1"])
    = inr sd /\
    dict_get "q1" sd = Some 3%Z /\
    dict_get "q3" sd = None /\
    dict_get "q10" sd = Some 1%Z /\
    length sd <= 10.
Proof.
  destruct (@score_summary_of_ten_answers
              ["3"; "4"; "x"; "2"; "1"; "5"; "2"; "3"; "4"; "1"]
              (proj1 (Nat.leb_le 10 10) eq_refl)
              ltac:(repeat constructor)
              ltac:(repeat constructor))
    as (sd & Hsd & _ & Hget & _ & Hsize & _).
  exists sd. split; [exact Hsd|].
  split; [exact (Hget 0 (proj1 (Nat.ltb_lt 0 10) eq_refl))|].
  split; [exact (Hget 2 (proj1 (Nat.ltb_lt 2 10) eq_refl))|].
  split; [exact (Hget 9 (proj1 (Nat.ltb_lt 9 10) eq_refl))|exact Hsize].
Defined.

(** Scenario 2 of the specification, by evaluation. *)
Example score_summary_scenario :
  score_summary (py_str_list ["3"; "4"; "x"; "2"; "1"; "5"; "2"; "3"; "4"; "1"])
  = inr [("q1", 3); ("q2", 4); ("q4", 2); ("q5", 1); ("q6", 5);
         ("q7", 2); ("q8", 3); ("q9", 4); ("q10", 1)]%Z.
Proof. reflexivity. Qed.

(** C4 as stated fails for a short list: the first answer ["3"] is a
    digit string, yet no key ["q1"] is recorded. *)
Lemma short_answers_not_scored :
  str_isdigit "3" = true /\
  int_of_str "3" = 3%Z /\
  score_summary (py_str_list ["3"; "4"; "x"]) = inr [] /\
  dict_get (score_key 0) (@nil (string * Z)) = None.
Proof.
  repeat split; reflexivity.
Qed.

(* ================================================================== *)
(** * The claim about the read endpoint *)
(* ================================================================== *)

(** Supabase counts as unconfigured when its URL or its key is empty. *)
Lemma unconfigured_store_disabled (url key : string) (create_client : option exn) :
  url = EmptyString \/ key = EmptyString -> supabase_enabled_at_import url key create_client = false.
Proof.
  unfold supabase_enabled_at_import.
  intros [-> | ->]; [reflexivity|]. now destruct url.
Qed.

(** C9, as the code has it.  [get_supabase_results] never raises.  With
    Supabase unconfigured it returns [{"error": "Supabase未設定"}] and touches
    nothing; with Supabase enabled and the select succeeding it returns
    [{"status": "success", "data": rows, "count": len(rows)}]; when the select
    raises it returns [{"error": str(e)}]. *)
Theorem get_supabase_results_payload (env : Env) (w : World) :
  (exists payload, fst (get_supabase_results env w) = inr payload) /\
  (SUPABASE_ENABLED env = false ->
   get_supabase_results env w = (inr (PyDict [("error", PyStr "Supabase未設定")]), w)) /\
  (SUPABASE_ENABLED env = true -> remote_select env = None ->
   fst (get_supabase_results env w)
   = inr (PyDict [("status", PyStr "success");
                  ("data", PyList (diagnostic_results w));
                  ("count", PyInt (Z.of_nat (length (diagnostic_results w))))])) /\
  (forall e, SUPABASE_ENABLED env = true -> remote_select env = Some e ->
   fst (get_supabase_results env w) = inr (PyDict [("error", PyStr (exc_str e))])).
Proof.
  run_py. repeat split.
  - case_env env; eexists; reflexivity.
  - intros Hoff. now rewrite Hoff.
  - intros Hon Hsel. rewrite Hon. cbn [negb]. now rewrite Hsel.
  - intros e Hon Hsel. rewrite Hon. cbn [negb]. now rewrite Hsel.
Qed.

Lemma get_supabase_results_payload_witness :
  get_supabase_results
    (mkEnv true (supabase_enabled_at_import EmptyString EmptyString None) sample_clock FileOk None None)
    empty_world
  = (inr (PyDict [("error", PyStr "Supabase未設定")]), empty_world).
Proof.
  exact (proj1 (proj2 (get_supabase_results_payload
                         (mkEnv true (supabase_enabled_at_import EmptyString EmptyString None)
                                sample_clock FileOk None None)
                         empty_world))
               eq_refl).
Defined.

(** C9 as stated fails on the message: the payload of the unconfigured
    case is not [{"error": "store not configured"}]. *)
Lemma unconfigured_payload_differs :
  fst (get_supabase_results
         (mkEnv true (supabase_enabled_at_import EmptyString EmptyString None) sample_clock FileOk None None)
         empty_world)
  <> inr (PyDict [("error", PyStr "store not configured")]).
Proof.
  discriminate.
Qed.

(* ================================================================== *)
(** * Further properties of the score summary *)
(* ================================================================== *)





(** The loop stops at the first entry at which it raises. *)
Lemma score_loop_first_raising (items : list pyval) :
  forall (i : nat) (sd : list (string * Z)),
    match find raising_answer items with
    | Some a => score_loop i items sd = inl (answer_error a)
    | None => exists sd', score_loop i items sd = inr sd'
    end.
Proof.
  induction items as [|a rest IH]; intros i sd.
  - simpl. eauto.
  - destruct a as [| b | n | s | l | d].
    + apply IH.
    + destruct b; [reflexivity|apply IH].
    + cbn [find score_loop raising_answer truthy].
      destruct (n =? 0)%Z; cbn [negb]; [apply IH|reflexivity].
    + cbn [find raising_answer].
      destruct (within_int_limit s) eqn:Hlim; cbn [negb].
      * rewrite score_loop_str_cons by exact Hlim. apply IH.
      * assert (Hdig : str_isdigit s = true).
        { unfold within_int_limit in Hlim.
          destruct (str_isdigit s); [reflexivity|discriminate Hlim]. }
        rewrite score_loop_str_unfold, Hdig, (py_int_beyond_limit s Hdig Hlim).
        reflexivity.
    + destruct l; [apply IH|reflexivity].
    + destruct d; [apply IH|reflexivity].
Qed.

(** X2. For a list of at least 10 entries, the strings among the first 10
    in ASCII, the score summary raises exactly when one of the first 10
    entries is truthy and not a [str], or is a digit string of more than 4300
    digits: the exception is the [AttributeError], respectively the
    [ValueError], of the first such entry.  [save_result] then still appends
    the local line, prints the Supabase error and inserts nothing. *)
Theorem score_summary_first_error (l : list pyval) :
  10 <= length l ->
  Forall (fun v => ascii_answer v = true) (firstn 10 l) ->
  (find raising_answer (firstn 10 l) = None ->
   exists sd, score_summary (PyList l) = inr sd) /\
  (forall a, find raising_answer (firstn 10 l) = Some a ->
     score_summary (PyList l) = inl (answer_error a) /\
     forall user_id gpt_result env w,
       local_file env = FileOk ->
       SUPABASE_ENABLED env = true ->
       let w' := snd (save_result user_id (PyList l) gpt_result env w) in
       diagnostic_results w' = diagnostic_results w /\
       results_json w'
       = results_json w ++
         dumps (local_record user_id (PyList l) gpt_result
                  (isoformat_now env (clock_reads w))) ++ newline /\
       In (EvPrint ("❌ Supabase保存エラー: " ++ exc_str (answer_error a)))
          (trace w')).
Proof.
  intros Hlen _.
  assert (Hsum : score_summary (PyList l) = score_loop 0 (firstn 10 l) []).
  { unfold score_summary. destruct (Nat.leb_spec 10 (length l)); [reflexivity|lia]. }
  pose proof (score_loop_first_raising (firstn 10 l) 0 []) as Hloop.
  split.
  - intros Hnone. rewrite Hnone in Hloop. now rewrite Hsum.
  - intros a Hsome. rewrite Hsome in Hloop. rewrite <- Hsum in Hloop.
    split; [exact Hloop|].
    intros user_id gpt_result env w Hfile Hon. cbv zeta.
    run_py. rewrite Hfile, Hon, Hloop.
    cbn [fst snd results_json diagnostic_results clock_reads trace].
    repeat split. rewrite !in_app_iff. cbn [In]. auto.
Qed.

Lemma score_summary_first_error_witness :
  score_summary
    (PyList [PyStr "3"; PyNone; PyInt 0; PyInt 4; PyStr "1"; PyStr "2";
             PyStr "3"; PyStr "4"; PyStr "5"; PyStr "1"])
  = inl (Exception "AttributeError" "'int' object has no attribute 'isdigit'").
Proof.
  exact (proj1 (proj2 (@score_summary_first_error
                         [PyStr "3"; PyNone; PyInt 0; PyInt 4; PyStr "1"; PyStr "2";
                          PyStr "3"; PyStr "4"; PyStr "5"; PyStr "1"]
                         (proj1 (Nat.leb_le 10 10) eq_refl)
                         ltac:(repeat constructor))
                      (PyInt 4) eq_refl)).
Defined.

(** A digit string of 4301 digits among the first 10 answers. *)
Example long_digit_answer_refused :
  score_summary
    (py_str_list ["3"; str_repeat "9" 4301; "x"; "2"; "1"; "5"; "2"; "3"; "4"; "1"])
  = inl (Exception "ValueError"
           "Exceeds the limit (4300 digits) for integer string conversion: value has 4301 digits; use sys.set_int_max_str_digits() to increase the limit").
Proof. vm_compute. reflexivity. Qed.









(* ================================================================== *)
(** * Further properties of the orchestrator *)
(* ================================================================== *)

(** The complete run of [process_assessment]: its result and the world it
    leaves, in terms of the run of [save_result]. *)
Lemma process_assessment_run (request : AssessmentRequest) (env : Env) (w : World) :
  let result :=
    assembled request
      (if OPENAI_ENABLED env then openai_analysis
       else fallback_analysis (quiet_responses request) (req_profile request))
      (isoformat_now env (clock_reads w)) in
  process_assessment request env w
  = (inr result,
     record_event (EvPrint ("✅ 診断完了: " ++ name (req_profile request)))
       (snd (save_result (name (req_profile request))
               (py_str_list (answers request))
               (AssessmentResult_dict result) env (before_save request w)))).
Proof.
  cbv zeta.
  unfold process_assessment, process_assessment_with, process_assessment_try,
    bind at 1 2.
  unfold print at 1. fold (started request w).
  rewrite analyze_quiet_responses_run. unfold assembled, before_save, clock_tick.
  destruct (OPENAI_ENABLED env);
    cbn [alert_indicators openai_analysis fallback_analysis length Nat.ltb Nat.leb];
    cbv [bind ret datetime_now_isoformat print];
    cbn [clock_reads results_json diagnostic_results trace record_event started];
    match goal with
    | |- context [save_result ?u ?a ?g ?e ?x] =>
        pose proof (save_result_returns u a g e x) as Hsave;
        destruct (save_result u a g e x) as [[err|[]] w2]
    end; try discriminate Hsave; reflexivity.
Qed.

(** Scorable answers never make the score summary raise. *)
Lemma score_summary_of_scorable (l : list string) :
  scorable l = true -> exists sd, score_summary (py_str_list l) = inr sd.
Proof.
  unfold scorable, score_summary, py_str_list. rewrite length_map. intros Hok.
  destruct (Nat.leb_spec 10 (length l)) as [Hlen|Hlen]; [|eauto].
  destruct (Nat.ltb_spec (length l) 10) as [Hlt|_]; [lia|]. cbn [orb] in Hok.
  rewrite firstn_map.
  assert (Hlimit : Forall (fun s => within_int_limit s = true) (firstn 10 l)).
  { apply Forall_forall. intros s Hin.
    rewrite forallb_forall in Hok. specialize (Hok s Hin).
    now apply andb_prop in Hok. }
  destruct (score_loop_strings Hlimit 0 []) as (sd & Hrun & _). eauto.
Qed.

(** The file after a call whose local append succeeds. *)
Lemma save_result_file_ok (user_id : string) (answers gpt_result : pyval)
      (env : Env) (w : World) :
  local_file env = FileOk ->
  results_json (snd (save_result user_id answers gpt_result env w))
  = results_json w ++
    dumps (local_record user_id answers gpt_result (isoformat_now env (clock_reads w))) ++
    newline.
Proof.
  intros Hok. run_py. rewrite Hok. case_env env; reflexivity.
Qed.



(** X5. What [process_assessment] stores is what it returns.  When the
    local append succeeds the new line of results.json is the JSON text of
    [{id: profile.name, answers, result: result.dict(), timestamp}] for the
    returned result, stamped with the clock reading after the one in the
    result; when the insert succeeds too and the answers are scorable (fewer
    than 10, or the first 10 in ASCII with no digit string of more than 4300
    digits), the new row holds [profile.name], the score summary and the JSON
    text of the same result as [gpt_comment]. *)
Theorem stored_record_is_returned_result
        (request : AssessmentRequest) (env : Env) (w : World) :
  local_file env = FileOk ->
  exists result,
    fst (process_assessment request env w) = inr result /\
    timestamp result = isoformat_now env (clock_reads w) /\
    results_json (snd (process_assessment request env w))
    = results_json w ++
      dumps (PyDict [("id", PyStr (name (req_profile request)));
                     ("answers", PyList (map PyStr (answers request)));
                     ("result", AssessmentResult_dict result);
                     ("timestamp", PyStr (isoformat_now env (S (clock_reads w))))]) ++
      newline /\
    (SUPABASE_ENABLED env = true -> remote_insert env = None ->
     scorable (answers request) = true ->
     exists sd,
       score_summary (PyList (map PyStr (answers request))) = inr sd /\
       diagnostic_results (snd (process_assessment request env w))
       = (diagnostic_results w ++
          [PyDict [("user_id", PyStr (name (req_profile request)));
                   ("score_summary", py_score_data sd);
                   ("gpt_comment", PyStr (dumps (AssessmentResult_dict result)));
                   ("origin", PyStr "mindscape")]])%list).
Proof.
  intros Hfile. pose proof (process_assessment_run request env w) as Hrun.
  cbv zeta in Hrun. rewrite Hrun. eexists. split; [reflexivity|].
  split; [reflexivity|]. cbn [snd record_event results_json diagnostic_results].
  split.
  - now rewrite save_result_file_ok by exact Hfile.
  - intros Hon Hins Hscorable.
    destruct (score_summary_of_scorable _ Hscorable) as [sd Hsd].
    exists sd. split; [exact Hsd|].
    now rewrite (@save_result_inserts _ _ _ env _ sd Hfile Hon Hins Hsd).
Qed.

Lemma stored_record_is_returned_result_witness :
  exists result,
    fst (process_assessment sample_request (sample_env false true FileOk None)
           empty_world) = inr result /\
    timestamp result = "2024-05-01T09:30:00" /\
    results_json
      (snd (process_assessment sample_request (sample_env false true FileOk None)
              empty_world))
    = dumps (PyDict [("id", PyStr "Aiko");
                     ("answers", PyList (map PyStr (answers sample_request)));
                     ("result", AssessmentResult_dict result);
                     ("timestamp", PyStr "2024-05-01T09:30:01")]) ++
      newline /\
    exists sd,
      score_summary (PyList (map PyStr (answers sample_request))) = inr sd /\
      diagnostic_results
        (snd (process_assessment sample_request (sample_env false true FileOk None)
                empty_world))
      = [PyDict [("user_id", PyStr "Aiko");
                 ("score_summary", py_score_data sd);
                 ("gpt_comment", PyStr (dumps (AssessmentResult_dict result)));
                 ("origin", PyStr "mindscape")]].
Proof.
  destruct (@stored_record_is_returned_result sample_request
              (sample_env false true FileOk None) empty_world eq_refl)
    as (result & Hres & Hts & Hfile & Hrow).
  exists result. split; [exact Hres|]. split; [exact Hts|]. split; [exact Hfile|].
  exact (Hrow eq_refl eq_refl eq_refl).
Defined.

(** The table and the trace after a call whose local write fails. *)
Lemma save_result_local_failure (user_id : string) (answers gpt_result : pyval)
      (env : Env) (w : World) (e : exn) :
  local_error (local_file env) = Some e ->
  diagnostic_results (snd (save_result user_id answers gpt_result env w))
  = diagnostic_results w /\
  In (EvPrint ("❌ 保存エラー: " ++ exc_str e))
     (trace (snd (save_result user_id answers gpt_result env w))).
Proof.
  run_py. destruct (local_file env) as [|e0|n e0]; cbn [local_error];
    intros [= <-]; cbn [fst snd results_json diagnostic_results clock_reads trace];
    (split; [reflexivity|]); rewrite ?in_app_iff; cbn [In]; auto.
Qed.

(** X6. A failing local write loses the assessment silently for the
    caller: [process_assessment] still returns its result and prints the
    completion line, the failure is only printed, and the Supabase table does
    not receive the record even when Supabase is enabled and working. *)
Theorem local_failure_loses_record
        (request : AssessmentRequest) (env : Env) (w : World) (e : exn) :
  local_error (local_file env) = Some e ->
  let w' := snd (process_assessment request env w) in
  (exists result, fst (process_assessment request env w) = inr result) /\
  diagnostic_results w' = diagnostic_results w /\
  In (EvPrint ("❌ 保存エラー: " ++ exc_str e)) (trace w') /\
  In (EvPrint ("✅ 診断完了: " ++ name (req_profile request))) (trace w').
Proof.
  intros Hfail. cbv zeta.
  pose proof (process_assessment_run request env w) as Hrun.
  cbv zeta in Hrun. rewrite Hrun.
  cbn [fst snd record_event results_json diagnostic_results trace].
  match goal with
  | |- context [save_result ?u ?a ?g ?e ?x] =>
      destruct (save_result_local_failure u a g e x Hfail) as [Htable Hlog]
  end.
  split; [eauto|]. split; [exact Htable|].
  rewrite !in_app_iff. cbn [In]. auto.
Qed.

Lemma local_failure_loses_record_witness :
  diagnostic_results
    (snd (process_assessment sample_request
            (sample_env true true (WriteFails 5 (Exception "OSError" "No space left"))
               None)
            empty_world))
  = [].
Proof.
  exact (proj1 (proj2 (@local_failure_loses_record sample_request
                         (sample_env true true
                            (WriteFails 5 (Exception "OSError" "No space left")) None)
                         empty_world _ eq_refl))).
Defined.

(* ================================================================== *)
(** * Further properties of the read endpoints *)
(* ================================================================== *)

(** X7. The read endpoints are read-only and total: for every environment
    [get_supabase_results] and [health_check] return a payload and leave
    results.json and the Supabase table as they were; [get_supabase_results]
    does not read the clock. *)
Theorem read_endpoints_change_nothing (env : Env) (w : World) (discord : bool) :
  (exists payload, fst (get_supabase_results env w) = inr payload) /\
  results_json (snd (get_supabase_results env w)) = results_json w /\
  diagnostic_results (snd (get_supabase_results env w)) = diagnostic_results w /\
  clock_reads (snd (get_supabase_results env w)) = clock_reads w /\
  (exists payload, fst (health_check discord env w) = inr payload) /\
  results_json (snd (health_check discord env w)) = results_json w /\
  diagnostic_results (snd (health_check discord env w)) = diagnostic_results w.
Proof.
  unfold health_check. run_py.
  case_env env; repeat split; eauto.
Qed.



(** X9. The health payload predicts the behaviour of the other endpoints:
    when it reports [supabase_enabled] false, [get_supabase_results] answers
    with the unconfigured error and [save_result] never adds a row; when it
    reports [openai_enabled] false, every assessment carries the fallback
    analysis; [discord_enabled] is the third module flag. *)
Theorem health_flags_predict_behaviour (env : Env) (w : World) (discord : bool) :
  exists payload,
    fst (health_check discord env w) = inr payload /\
    (health_feature payload "supabase_enabled" = Some (PyBool false) ->
     (forall w1,
        fst (get_supabase_results env w1)
        = inr (PyDict [("error", PyStr "Supabase未設定")])) /\
     (forall user_id answers gpt_result w1,
        diagnostic_results (snd (save_result user_id answers gpt_result env w1))
        = diagnostic_results w1)) /\
    (health_feature payload "openai_enabled" = Some (PyBool false) ->
     forall request w1,
       exists result,
         fst (process_assessment request env w1) = inr result /\
         quiet_analysis result
         = fallback_analysis (quiet_responses request) (req_profile request)) /\
    health_feature payload "discord_enabled" = Some (PyBool discord).
Proof.
  eexists. split; [reflexivity|].
  cbn [health_feature dict_get String.eqb Ascii.eqb Bool.eqb].
  split; [|split; [|reflexivity]].
  - intros [= Hoff]. split.
    + intros w1. run_py. now rewrite Hoff.
    + intros user_id answers gpt_result w1. run_py. rewrite Hoff.
      case_env env; reflexivity.
  - intros [= Hoff] request w1. eexists.
    split; [apply process_assessment_result|]. now rewrite Hoff.
Qed.

Lemma health_flags_predict_behaviour_witness :
  exists payload,
    fst (health_check true (sample_env false false FileOk None) empty_world)
    = inr payload /\
    health_feature payload "supabase_enabled" = Some (PyBool false) /\
    fst (get_supabase_results (sample_env false false FileOk None) empty_world)
    = inr (PyDict [("error", PyStr "Supabase未設定")]).
Proof.
  destruct (health_flags_predict_behaviour
              (sample_env false false FileOk None) empty_world true)
    as (payload & Hpayload & Hsupabase & _).
  exists payload. split; [exact Hpayload|].
  injection Hpayload as <-. split; [reflexivity|].
  exact (proj1 (Hsupabase eq_refl) empty_world).
Defined.

(* ================================================================== *)
(** * Further properties of the flags *)
(* ================================================================== *)

(** X10. Supabase is enabled exactly when URL and key are both set and
    [create_client] did not raise.  Otherwise nothing goes to or comes from
    Supabase: [save_result] adds no row and records no insert, whatever the
    file does, and [get_supabase_results] answers with the unconfigured
    error. *)
Theorem supabase_flag_gates_the_store
        (url key : string) (create_client : option exn) :
  (supabase_enabled_at_import url key create_client = true <->
   url <> EmptyString /\ key <> EmptyString /\ create_client = None) /\
  (supabase_enabled_at_import url key create_client = false ->
   forall openai clock file ins sel user_id answers gpt_result w,
     let env := mkEnv openai (supabase_enabled_at_import url key create_client)
                      clock file ins sel in
     let w' := snd (save_result user_id answers gpt_result env w) in
     diagnostic_results w' = diagnostic_results w /\
     (forall row, In (EvInsert row) (trace w') -> In (EvInsert row) (trace w)) /\
     fst (get_supabase_results env w)
     = inr (PyDict [("error", PyStr "Supabase未設定")])).
Proof.
  split.
  - unfold supabase_enabled_at_import.
    destruct url, key, create_client; cbn; split;
      try discriminate; try (intros (H1 & H2 & H3); congruence);
      intros _; repeat split; discriminate.
  - intros Hoff openai clock file ins sel user_id answers gpt_result w.
    cbv zeta. rewrite Hoff. run_py. cbn [local_file SUPABASE_ENABLED negb].
    destruct file;
      cbn [fst snd results_json diagnostic_results clock_reads trace];
      repeat split; intros row; rewrite ?in_app_iff; cbn [In];
      intros Hin; repeat destruct Hin as [Hin|Hin];
      auto; discriminate || contradiction.
Qed.

Lemma supabase_flag_gates_the_store_witness :
  diagnostic_results
    (snd (save_result "Aiko" (py_str_list (answers sample_request)) (PyDict [])
            (mkEnv true
               (supabase_enabled_at_import "https://x.supabase.co" "anon-key"
                  (Some (Exception "SupabaseException" "Invalid URL")))
               sample_clock FileOk None None)
            empty_world))
  = [].
Proof.
  exact (proj1 (proj2 (supabase_flag_gates_the_store "https://x.supabase.co" "anon-key"
                         (Some (Exception "SupabaseException" "Invalid URL")))
                      eq_refl true sample_clock FileOk None None
                      "Aiko" (py_str_list (answers sample_request)) (PyDict [])
                      empty_world)).
Defined.

(** X11. OpenAI analysis is enabled exactly when the key starts with
    ["sk-"]; nothing else of the key is looked at.  With any other key every
    assessment carries the fallback analysis. *)
Theorem openai_flag_is_key_prefix (key : string) :
  (openai_enabled_at_import key = true <-> exists rest, key = "sk-" ++ rest) /\
  (openai_enabled_at_import key = false ->
   forall supabase clock file ins sel request w,
     exists result,
       fst (process_assessment request
              (mkEnv (openai_enabled_at_import key) supabase clock file ins sel) w)
       = inr result /\
       quiet_analysis result
       = fallback_analysis (quiet_responses request) (req_profile request)).
Proof.
  split.
  - unfold openai_enabled_at_import. split.
    + intros Hon. apply andb_prop in Hon as [_ Hprefix].
      do 3 (destruct key as [|? key]; [discriminate Hprefix|];
            cbn [String.prefix] in Hprefix;
            match type of Hprefix with
            | context [ascii_dec ?x ?y] =>
                destruct (ascii_dec x y) as [<-|]; [|discriminate Hprefix]
            end).
      now exists key.
    + intros [rest ->]. cbn. now destruct rest.
  - intros Hoff supabase clock file ins sel request w. eexists.
    split; [apply process_assessment_result|].
    cbn [OPENAI_ENABLED]. now rewrite Hoff.
Qed.

Lemma openai_flag_is_key_prefix_witness :
  openai_enabled_at_import "sk-" = true.
Proof.
  exact (proj2 (proj1 (openai_flag_is_key_prefix "sk-"))
           (ex_intro _ EmptyString eq_refl)).
Defined.

(* ================================================================== *)
(** * Further properties of the local log *)
(* ================================================================== *)

Lemma has_control_app (a b : string) :
  has_control (a ++ b) = has_control a || has_control b.
Proof.
  induction a as [|c a IH]; simpl; [reflexivity|].
  now rewrite IH, orb_assoc.
Qed.

Lemma escape_char_no_control (c : ascii) : has_control (escape_char c) = false.
Proof.
  destruct c as [[] [] [] [] [] [] [] []]; reflexivity.
Qed.

Lemma encode_basestring_no_control (s : string) :
  has_control (encode_basestring s) = false.
Proof.
  unfold encode_basestring. cbn [has_control]. rewrite has_control_app.
  replace (has_control (escape_string s)) with false; [reflexivity|].
  induction s as [|c s IH]; [reflexivity|].
  cbn [escape_string]. now rewrite has_control_app, escape_char_no_control, <- IH.
Qed.

Lemma str_of_int_no_control (n : Z) : has_control (str_of_int n) = false.
Proof.
  assert (Huint : forall d, has_control (DecimalString.NilEmpty.string_of_uint d) = false)
    by (induction d; simpl; auto).
  unfold str_of_int, DecimalString.NilZero.string_of_int,
    DecimalString.NilZero.string_of_uint.
  destruct (Z.to_int n) as [d|d]; destruct d; simpl; auto.
Qed.

Lemma join_no_control (parts : list string) :
  Forall (fun p => has_control p = false) parts ->
  has_control (join ", " parts) = false.
Proof.
  induction 1 as [|p rest Hp Hrest IH]; [reflexivity|].
  destruct rest as [|q rest]; [exact Hp|].
  change (join ", " (p :: q :: rest)) with (p ++ ", " ++ join ", " (q :: rest)).
  now rewrite !has_control_app, Hp, IH.
Qed.

Lemma dumps_no_control (v : pyval) : has_control (dumps v) = false.
Proof.
  induction v as [| [] | n | s | l IH | d IH] using pyval_rect_nested;
    try reflexivity.
  - apply str_of_int_no_control.
  - apply encode_basestring_no_control.
  - cbn [dumps]. rewrite !has_control_app, join_no_control; [reflexivity|].
    induction IH; constructor; auto.
  - cbn [dumps]. rewrite !has_control_app, join_no_control; [reflexivity|].
    induction IH as [|kv r Hkv Hr IHr]; constructor; auto.
    now rewrite !has_control_app, encode_basestring_no_control, Hkv.
Qed.

(** X12. The records of results.json stay one per line whatever text they
    carry: the JSON text that [save_result] writes for any user id, answers
    and result holds no control character (no line feed, carriage return,
    tab, ...), so the only one in the appended text is the final newline; the
    same holds of the [gpt_comment] of the inserted row. *)
Theorem log_line_has_no_control_character
        (user_id : string) (answers gpt_result : pyval) (env : Env) (w : World) :
  local_file env = FileOk ->
  exists line,
    results_json (snd (save_result user_id answers gpt_result env w))
    = results_json w ++ line ++ newline /\
    has_control line = false /\
    has_control (dumps gpt_result) = false.
Proof.
  intros Hok. eexists. split; [apply (save_result_file_ok user_id answers gpt_result env w Hok)|].
  split; apply dumps_no_control.
Qed.

Lemma log_line_has_no_control_character_witness :
  exists line,
    results_json
      (snd (save_result ("Ai" ++ newline ++ "ko") (py_str_list ["a" ++ newline])
              (PyDict [(newline, PyStr (String (ascii_of_nat 13) "x"))])
              (sample_env false false FileOk None) empty_world))
    = line ++ newline /\
    has_control line = false.
Proof.
  destruct (@log_line_has_no_control_character
              ("Ai" ++ newline ++ "ko") (py_str_list ["a" ++ newline])
              (PyDict [(newline, PyStr (String (ascii_of_nat 13) "x"))])
              (sample_env false false FileOk None) empty_world eq_refl)
    as (line & Hfile & Hline & _).
  exists line. split; [exact Hfile|exact Hline].
Defined.

(** The clock after a call whose file opened. *)
Lemma save_result_clock (user_id : string) (answers gpt_result : pyval)
      (env : Env) (w : World) :
  clock_reads (snd (save_result user_id answers gpt_result env w))
  = match local_file env with
    | OpenFails _ => clock_reads w
    | _ => S (clock_reads w)
    end.
Proof.
  run_py. case_env env; reflexivity.
Qed.

Lemma save_result_file_prefix (user_id : string) (answers gpt_result : pyval)
      (env : Env) (w : World) :
  exists added,
    results_json (snd (save_result user_id answers gpt_result env w))
    = results_json w ++ added.
Proof.
  run_py. case_env env;
    try (eexists; reflexivity);
    exists EmptyString; now rewrite string_app_nil_r.
Qed.

Lemma string_app_assoc (a b c : string) : (a ++ b) ++ c = a ++ (b ++ c).
Proof.
  induction a as [|x a IH]; simpl; [reflexivity | now rewrite IH].
Qed.

(** X13. Successive calls accumulate: after a call whose local append
    succeeded, a second call, whatever its outcome, leaves the first line in
    place and writes only after it; when its append succeeds too, the file
    holds the two lines in call order, the second stamped with the next clock
    reading, and has two more newlines. *)
Theorem successive_saves_accumulate
        (u1 u2 : string) (a1 g1 a2 g2 : pyval) (env1 env2 : Env) (w : World) :
  local_file env1 = FileOk ->
  let w1 := snd (save_result u1 a1 g1 env1 w) in
  let w2 := snd (save_result u2 a2 g2 env2 w1) in
  let line1 := dumps (local_record u1 a1 g1 (isoformat_now env1 (clock_reads w))) in
  (exists added,
     results_json w2 = results_json w ++ line1 ++ newline ++ added) /\
  (local_file env2 = FileOk ->
   results_json w2
   = results_json w ++ line1 ++ newline ++
     dumps (local_record u2 a2 g2 (isoformat_now env2 (S (clock_reads w)))) ++
     newline /\
   count_char newline_char (results_json w2)
   = 2 + count_char newline_char (results_json w)).
Proof.
  intros Hok1. cbv zeta.
  pose proof (save_result_file_ok u1 a1 g1 env1 w Hok1) as Hfile1.
  pose proof (save_result_clock u1 a1 g1 env1 w) as Hclock1.
  rewrite Hok1 in Hclock1.
  split.
  - destruct (save_result_file_prefix u2 a2 g2 env2
                (snd (save_result u1 a1 g1 env1 w))) as [added Hadded].
    exists added. rewrite Hadded, Hfile1. now rewrite !string_app_assoc.
  - intros Hok2.
    assert (Hfile2 :
              results_json (snd (save_result u2 a2 g2 env2
                                   (snd (save_result u1 a1 g1 env1 w))))
              = results_json w ++
                dumps (local_record u1 a1 g1 (isoformat_now env1 (clock_reads w))) ++
                newline ++
                dumps (local_record u2 a2 g2 (isoformat_now env2 (S (clock_reads w)))) ++
                newline).
    { rewrite (save_result_file_ok u2 a2 g2 env2 _ Hok2), Hfile1, Hclock1.
      now rewrite !string_app_assoc. }
    split; [exact Hfile2|].
    rewrite Hfile2, !count_char_app, !dumps_no_newline. simpl. lia.
Qed.

Lemma successive_saves_accumulate_witness :
  count_char newline_char
    (results_json
       (snd (save_result "Ben" (py_str_list ["1"]) (PyDict [])
               (sample_env true true FileOk (Some (Exception "APIError" "503")))
               (snd (save_result "Aiko" (py_str_list ["2"]) (PyDict [])
                       (sample_env false false FileOk None) empty_world)))))
  = 2.
Proof.
  exact (proj2 (proj2 (@successive_saves_accumulate "Aiko" "Ben"
                         (py_str_list ["2"]) (PyDict []) (py_str_list ["1"]) (PyDict [])
                         (sample_env false false FileOk None)
                         (sample_env true true FileOk (Some (Exception "APIError" "503")))
                         empty_world eq_refl)
                      eq_refl)).
Defined.
